(** * Health-InfraOps: the Gunicorn configuration module

    A shallow embedding of [servers/app-servers/python/gunicorn.conf.py].

    The file is a Python module that the server manager executes once at
    start-up.  Executing it binds names in the module namespace (settings,
    the two imported modules and the lifecycle callbacks); afterwards the
    manager calls the callbacks, which write to the logger reached through
    their [server] or [worker] argument.

    - [Py]        : Python scalars, [str] and substring membership;
    - [Run]       : the state-and-exception monad both parts run in;
    - [Conf]      : the module body, executed top to bottom over a namespace;
    - [Hooks]     : the eight callbacks, over a stream of logger calls;
    - [Synthetic] : concrete server, worker, request and response objects;
    - [Table]     : the hook table of the specification;
    - [Names]     : the globals the body binds;
    - [Runs]      : sequences of invocations and per-logger views;
    - [Objects]   : the callbacks on untyped arguments, where an attribute
      can be missing;
    - [PyTheory], [ConfTheory], [HooksTheory], [ObjectsTheory] : the
      properties;
    - [TextTheory], [NamespaceTheory], [RunsTheory] : further properties of
      the module body and of the callbacks. *)

From Stdlib Require Import ZArith Lia.
From stdpp Require Import base strings pretty list gmap.

(** ** Python values *)

Module Py.

(** The scalars that occur as literals in the file or as attributes read by
    the callbacks ([worker.pid] is an [int] once forked and the string
    ["[booting]"] before; [req.method], [req.path] and [resp.status] are
    strings, or [None] while unset). *)
Inductive value : Type :=
| VInt (z : Z)
| VStr (s : string)
| VBool (b : bool)
| VNone.

#[global] Instance value_eq_dec : EqDecision value.
Proof. solve_decision. Defined.

(** [str(v)]: decimal digits with a leading minus sign for an [int], the
    string itself for a [str], and the keywords for [bool] and [None]. *)
Definition str (v : value) : string :=
  match v with
  | VInt z => pretty z
  | VStr s => s
  | VBool true => "True"
  | VBool false => "False"
  | VNone => "None"
  end.

(** A replacement field [{v}] of an f-string, with neither conversion nor
    format specification, formats [v] with the empty specification, which
    is [str(v)] for the scalars above. *)
Definition format (v : value) : string := str v.

(** [sub in s] on strings: [sub] starts at some position of [s]. *)
Fixpoint contains (sub s : string) : bool :=
  if String.prefix sub s then true
  else match s with
       | EmptyString => false
       | String _ s' => contains sub s'
       end.

End Py.

(** ** Execution monad

    A computation reads and updates a state [S] and either returns a value
    or raises a Python exception, in which case the state is lost to the
    caller (the module load is abandoned, or the manager handles the error). *)

Module Run.

Inductive exn : Type :=
| NotImplementedError
| NameError (name : string)
| AttributeError (name : string).

Inductive result (A : Type) : Type :=
| Ok (a : A)
| Raise (e : exn).
Arguments Ok {A} a.
Arguments Raise {A} e.

Definition M (S : Type) : Type → Type := λ A, S → result (A * S).

#[global] Instance M_ret {S} : MRet (M S) := λ A a st, Ok (a, st).

#[global] Instance M_bind {S} : MBind (M S) := λ A B k c st,
  match c st with
  | Ok (a, st') => k a st'
  | Raise e => Raise e
  end.

Definition raise {S A} (e : exn) : M S A := λ _, Raise e.

(** The final state of a run, when it returns. *)
Definition exec {S A} (c : M S A) (st : S) : result S :=
  match c st with
  | Ok (_, st') => Ok st'
  | Raise e => Raise e
  end.

End Run.

Export Run.

(** ** The module body *)

Module Conf.
Import Py.

(** The names of the functions the file defines, in source order. *)
Inductive hook_name : Type :=
| WhenReady
| PreFork
| PostFork
| PreExec
| WorkerInt
| WorkerAbort
| PreRequest
| PostRequest.

#[global] Instance hook_name_eq_dec : EqDecision hook_name.
Proof. solve_decision. Defined.

(** What a global name of the module can be bound to. *)
Inductive binding : Type :=
| Scalar (v : value)
| ListOf (l : list value)
| Function (h : hook_name)
| Module_ (name : string).

#[global] Instance binding_eq_dec : EqDecision binding.
Proof. solve_decision. Defined.

(** The part of the host the module reads while loading: the result of
    [os.cpu_count()], which is [None] when the count cannot be determined. *)
Record host : Type := { os_cpu_count : option Z }.

(** [name = literal], [import name] and [def name(...)] each bind one
    global, replacing an earlier binding of the same name. *)
Definition assign (name : string) (b : binding) : M (gmap string binding) unit :=
  λ ns, Ok (tt, <[name := b]> ns).

Definition import_ (name : string) : M (gmap string binding) unit :=
  assign name (Module_ name).

Definition def (name : string) (h : hook_name) : M (gmap string binding) unit :=
  assign name (Function h).

(** [multiprocessing.cpu_count()]: the global [multiprocessing] is looked
    up in the namespace, and the call returns the host's count or raises
    [NotImplementedError] when there is none. *)
Definition multiprocessing_cpu_count (h : host) : M (gmap string binding) Z :=
  λ ns,
    match ns !! "multiprocessing" with
    | None => Raise (NameError "multiprocessing")
    | Some _ =>
        match os_cpu_count h with
        | Some n => Ok (n, ns)
        | None => Raise NotImplementedError
        end
    end.

(** The double-quote character, which the access-log template embeds. *)
Definition dquote : string := String (Ascii.ascii_of_nat 34) EmptyString.

Notation "name ::= v" := (assign name (Scalar v)) (at level 60, no associativity).

(** The statements of [gunicorn.conf.py], top to bottom. *)
Definition gunicorn_conf (h : host) : M (gmap string binding) unit :=
  import_ "multiprocessing";;
  import_ "os";;
  (* Server socket *)
  "bind" ::= VStr "0.0.0.0:8000";;
  "backlog" ::= VInt 2048;;
  (* Worker processes *)
  n ← multiprocessing_cpu_count h;
  "workers" ::= VInt (n * 2 + 1);;
  "worker_class" ::= VStr "gevent";;
  "worker_connections" ::= VInt 1000;;
  "max_requests" ::= VInt 1000;;
  "max_requests_jitter" ::= VInt 50;;
  "timeout" ::= VInt 30;;
  "keepalive" ::= VInt 2;;
  (* Security *)
  "limit_request_line" ::= VInt 4096;;
  "limit_request_fields" ::= VInt 100;;
  "limit_request_field_size" ::= VInt 8190;;
  (* Process naming *)
  "proc_name" ::= VStr "infokes-api";;
  (* Logging *)
  "accesslog" ::= VStr "/var/log/gunicorn/access.log";;
  "errorlog" ::= VStr "/var/log/gunicorn/error.log";;
  "loglevel" ::= VStr "info";;
  "access_log_format" ::=
    VStr ("%(h)s %(l)s %(u)s %(t)s " +:+ dquote +:+ "%(r)s" +:+ dquote +:+
          " %(s)s %(b)s " +:+ dquote +:+ "%(f)s" +:+ dquote +:+
          " " +:+ dquote +:+ "%(a)s" +:+ dquote);;
  (* Server mechanics *)
  "daemon" ::= VBool false;;
  "pidfile" ::= VStr "/var/run/gunicorn/gunicorn.pid";;
  "umask" ::= VInt 0;;
  "user" ::= VNone;;
  "group" ::= VNone;;
  "tmp_upload_dir" ::= VNone;;
  (* Preload app *)
  "preload_app" ::= VBool true;;
  (* Worker temp directory *)
  "worker_tmp_dir" ::= VStr "/dev/shm";;
  (* Environment variables *)
  assign "raw_env" (ListOf [VStr "PYTHONPATH=/opt/infokes/app";
                            VStr "INFOKES_ENV=production"]);;
  (* Custom settings *)
  def "when_ready" WhenReady;;
  def "pre_fork" PreFork;;
  def "post_fork" PostFork;;
  def "pre_exec" PreExec;;
  def "worker_int" WorkerInt;;
  def "worker_abort" WorkerAbort;;
  def "pre_request" PreRequest;;
  def "post_request" PostRequest.

(** Loading the configuration: the body runs in a fresh namespace. *)
Definition load (h : host) : result (gmap string binding) :=
  exec (gunicorn_conf h) ∅.

(** A host that reports [n] processors, and the namespace the body leaves
    behind there. *)
Definition host_with (n : Z) : host := {| os_cpu_count := Some n |}.

Definition namespace_at (n : Z) : gmap string binding :=
  match load (host_with n) with
  | Ok ns => ns
  | Raise _ => ∅
  end.

(** The functions a namespace defines. *)
Definition is_function (kv : string * binding) : bool :=
  match kv.2 with
  | Function _ => true
  | _ => false
  end.

Definition callbacks (ns : gmap string binding) : list (string * binding) :=
  filter (λ kv, is_function kv = true) (map_to_list ns).

End Conf.

(** ** The lifecycle callbacks *)

Module Hooks.
Import Py Conf.

(** A logger object, by identity: [server.log] and [worker.log] may or may
    not be the same object. *)
Definition logger : Type := nat.

Inductive level : Type := DEBUG | INFO | WARNING | ERROR | CRITICAL.

#[global] Instance level_eq_dec : EqDecision level.
Proof. solve_decision. Defined.

(** What a logger method is handed: the level of the method and the
    message.  Whether the logger goes on to filter or format the record is
    the logger's business, not the callback's. *)
Record LogRecord : Type := { levelname : level; message : string }.

#[global] Instance LogRecord_eq_dec : EqDecision LogRecord.
Proof. solve_decision. Defined.

(** The log stream: every call made on a logger so far, oldest first, with
    the logger it was made on. *)
Abbreviation stream := (list (logger * LogRecord)).

Definition emit (lg : logger) (lvl : level) (msg : string) : M stream value :=
  λ st, Ok (VNone, st ++ [(lg, {| levelname := lvl; message := msg |})]).

(** [lg.info(msg)] and [lg.debug(msg)]. *)
Definition info (lg : logger) (msg : string) : M stream value := emit lg INFO msg.
Definition debug (lg : logger) (msg : string) : M stream value := emit lg DEBUG msg.

(** The callbacks are duck-typed: each works on any object that has the
    attributes it reads. *)
Class HasLog (A : Type) := log : A → logger.
Class HasPid (A : Type) := pid : A → value.
Class HasMethod (A : Type) := method : A → value.
Class HasPath (A : Type) := path : A → value.
Class HasStatus (A : Type) := status : A → value.

Definition when_ready `{HasLog Server} (server : Server) : M stream value :=
  info (log server) "Infokes API server is ready and accepting connections";;
  mret VNone.

Definition pre_fork {Server Worker : Type} (server : Server) (worker : Worker)
  : M stream value :=
  mret VNone.

Definition post_fork `{HasLog Server, HasPid Worker}
    (server : Server) (worker : Worker) : M stream value :=
  info (log server) ("Worker " +:+ format (pid worker) +:+ " spawned");;
  mret VNone.

Definition pre_exec `{HasLog Server} (server : Server) : M stream value :=
  info (log server) "Forked child, re-executing";;
  mret VNone.

Definition worker_int `{HasLog Worker} (worker : Worker) : M stream value :=
  info (log worker) "Worker received INT or QUIT signal";;
  mret VNone.

Definition worker_abort `{HasLog Worker} (worker : Worker) : M stream value :=
  info (log worker) "Worker received SIGABRT signal";;
  mret VNone.

Definition pre_request `{HasLog Worker, HasMethod Request, HasPath Request}
    (worker : Worker) (req : Request) : M stream value :=
  debug (log worker)
    ("Request: " +:+ format (method req) +:+ " " +:+ format (path req));;
  mret VNone.

Definition post_request `{HasLog Worker, HasStatus Response}
    {Request Environ : Type}
    (worker : Worker) (req : Request) (environ : Environ) (resp : Response)
  : M stream value :=
  debug (log worker) ("Response: " +:+ format (status resp));;
  mret VNone.

(** One invocation of a callback by the server manager, with its
    arguments. *)
Section Calls.
Context {Server Worker Request Environ Response : Type}.
Context `{!HasLog Server, !HasLog Worker, !HasPid Worker}.
Context `{!HasMethod Request, !HasPath Request, !HasStatus Response}.

Inductive call : Type :=
| call_when_ready (server : Server)
| call_pre_fork (server : Server) (worker : Worker)
| call_post_fork (server : Server) (worker : Worker)
| call_pre_exec (server : Server)
| call_worker_int (worker : Worker)
| call_worker_abort (worker : Worker)
| call_pre_request (worker : Worker) (req : Request)
| call_post_request (worker : Worker) (req : Request) (environ : Environ)
    (resp : Response).

Definition callee (c : call) : hook_name :=
  match c with
  | call_when_ready _ => WhenReady
  | call_pre_fork _ _ => PreFork
  | call_post_fork _ _ => PostFork
  | call_pre_exec _ => PreExec
  | call_worker_int _ => WorkerInt
  | call_worker_abort _ => WorkerAbort
  | call_pre_request _ _ => PreRequest
  | call_post_request _ _ _ _ => PostRequest
  end.

Definition invoke (c : call) : M stream value :=
  match c with
  | call_when_ready server => when_ready server
  | call_pre_fork server worker => pre_fork server worker
  | call_post_fork server worker => post_fork server worker
  | call_pre_exec server => pre_exec server
  | call_worker_int worker => worker_int worker
  | call_worker_abort worker => worker_abort worker
  | call_pre_request worker req => pre_request worker req
  | call_post_request worker req environ resp =>
      post_request worker req environ resp
  end.
End Calls.

Arguments call : clear implicits.

End Hooks.

(** ** Synthetic descriptors

    Stand-ins for the manager's objects, with the attributes the callbacks
    read and a few they do not. *)

Module Synthetic.
Import Py Hooks.

Record Arbiter : Type := { arbiter_log : logger; arbiter_pid : value }.

Record Worker : Type :=
  { worker_pid : value; worker_log : logger; worker_age : Z; worker_booted : bool }.

Record Request : Type :=
  { req_method : value; req_path : value; req_query : value; req_version : Z * Z }.

Record Response : Type :=
  { resp_status : value; resp_sent : Z; resp_chunked : bool }.

#[global] Instance Arbiter_log : HasLog Arbiter := arbiter_log.
#[global] Instance Worker_log : HasLog Worker := worker_log.
#[global] Instance Worker_pid : HasPid Worker := worker_pid.
#[global] Instance Request_method : HasMethod Request := req_method.
#[global] Instance Request_path : HasPath Request := req_path.
#[global] Instance Response_status : HasStatus Response := resp_status.

Definition arbiter0 : Arbiter := {| arbiter_log := 0; arbiter_pid := VInt 977 |}.

Definition worker4321 : Worker :=
  {| worker_pid := VInt 4321; worker_log := 1; worker_age := 3; worker_booted := true |}.

Definition worker_booting : Worker :=
  {| worker_pid := VStr "[booting]"; worker_log := 0; worker_age := 4;
     worker_booted := false |}.

Definition get_health : Request :=
  {| req_method := VStr "GET"; req_path := VStr "/health"; req_query := VStr EmptyString;
     req_version := (1%Z, 1%Z) |}.

Definition get_health_verbose : Request :=
  {| req_method := VStr "GET"; req_path := VStr "/health"; req_query := VStr "verbose=1";
     req_version := (1%Z, 0%Z) |}.

Definition resp200 : Response :=
  {| resp_status := VStr "200"; resp_sent := 17; resp_chunked := false |}.

Definition resp200_chunked : Response :=
  {| resp_status := VStr "200"; resp_sent := 4096; resp_chunked := true |}.

Definition environ0 : gmap string string := ∅.

Definition environ1 : gmap string string := {[ "PATH_INFO" := "/health" ]}.

End Synthetic.

(** ** The hook table of the specification

    The level of the line each hook is listed as writing, if any. *)

Module Table.
Import Conf Hooks.

Definition table_levels (h : hook_name) : list level :=
  match h with
  | WhenReady => [INFO]
  | PreFork => []
  | PostFork => [INFO]
  | PreExec => [INFO]
  | WorkerInt => [INFO]
  | WorkerAbort => [INFO]
  | PreRequest => [DEBUG]
  | PostRequest => [DEBUG]
  end.

End Table.

(** ** Names the file binds *)

Module Names.
Import Conf.

(** Every global the body binds, in source order: the two imports, the
    settings, the callbacks. *)
Definition declared_names : list string :=
  ["multiprocessing"; "os"; "bind"; "backlog"; "workers"; "worker_class";
   "worker_connections"; "max_requests"; "max_requests_jitter"; "timeout";
   "keepalive"; "limit_request_line"; "limit_request_fields";
   "limit_request_field_size"; "proc_name"; "accesslog"; "errorlog"; "loglevel";
   "access_log_format"; "daemon"; "pidfile"; "umask"; "user"; "group";
   "tmp_upload_dir"; "preload_app"; "worker_tmp_dir"; "raw_env"; "when_ready";
   "pre_fork"; "post_fork"; "pre_exec"; "worker_int"; "worker_abort";
   "pre_request"; "post_request"].

(** The name each function is defined under. *)
Definition def_name (h : hook_name) : string :=
  match h with
  | WhenReady => "when_ready"
  | PreFork => "pre_fork"
  | PostFork => "post_fork"
  | PreExec => "pre_exec"
  | WorkerInt => "worker_int"
  | WorkerAbort => "worker_abort"
  | PreRequest => "pre_request"
  | PostRequest => "post_request"
  end.

End Names.

(** ** Runs of callbacks *)

Module Runs.
Import Py Conf Hooks.

(** [s.endswith(suf)]. *)
Fixpoint ends_with (suf s : string) : bool :=
  if String.eqb suf s then true
  else match s with
       | EmptyString => false
       | String _ s' => ends_with suf s'
       end.

(** The records of one logger, oldest first. *)
Definition on_logger (lg : logger) (st : stream) : list LogRecord :=
  (filter (λ e, e.1 = lg) st).*2.

(** Two more synthetic objects: a second forked worker, and a request whose
    method is not a single token. *)
Definition worker5150 : Synthetic.Worker :=
  {| Synthetic.worker_pid := VInt 5150; Synthetic.worker_log := 0;
     Synthetic.worker_age := 1; Synthetic.worker_booted := true |}.

Definition spaced_method : Synthetic.Request :=
  {| Synthetic.req_method := VStr "GET /a"; Synthetic.req_path := VStr "b";
     Synthetic.req_query := VNone; Synthetic.req_version := (1%Z, 1%Z) |}.

Definition spaced_path : Synthetic.Request :=
  {| Synthetic.req_method := VStr "GET"; Synthetic.req_path := VStr "/a b";
     Synthetic.req_query := VNone; Synthetic.req_version := (1%Z, 1%Z) |}.

Section Sequences.
Context {Server Worker Request Environ Response : Type}.
Context `{!HasLog Server, !HasLog Worker, !HasPid Worker}.
Context `{!HasMethod Request, !HasPath Request, !HasStatus Response}.

(** What an invocation writes when the stream is empty. *)
Definition records (c : call Server Worker Request Environ Response) : stream :=
  match invoke c [] with
  | Ok (_, st) => st
  | Raise _ => []
  end.

(** The manager calls the callbacks one after the other and drops what they
    return. *)
Fixpoint invoke_all (cs : list (call Server Worker Request Environ Response))
  : M stream value :=
  match cs with
  | [] => mret VNone
  | c :: cs' => invoke c;; invoke_all cs'
  end.

End Sequences.

End Runs.

(** ** The callbacks on untyped arguments

    Python checks nothing when the manager calls a callback: an argument is
    whatever object is passed, and reading an attribute it does not have
    raises [AttributeError].  Here an argument is seen through the attributes
    it has; a value with no attribute of the names read ([None], a number, a
    dictionary) is the empty map. *)

Module Objects.
Import Py Conf Hooks.

(** What an attribute holds: a scalar, or an object that is a logger. *)
Inductive attr : Type :=
| AScalar (v : value)
| ALogger (lg : logger).

#[global] Instance attr_eq_dec : EqDecision attr.
Proof. solve_decision. Defined.

(** [o.name]. *)
Definition getattr (o : gmap string attr) (name : string) : M stream attr :=
  λ st,
    match o !! name with
    | Some a => Ok (a, st)
    | None => Raise (AttributeError name)
    end.

(** The bound method [a.info] or [a.debug], looked up before the argument of
    the call is evaluated: only a logger has one. *)
Definition bound_method (a : attr) (lvl : level) (name : string)
  : M stream (string → M stream value) :=
  match a with
  | ALogger lg => mret (emit lg lvl)
  | AScalar _ => raise (AttributeError name)
  end.

Definition info_of (a : attr) : M stream (string → M stream value) :=
  bound_method a INFO "info".

Definition debug_of (a : attr) : M stream (string → M stream value) :=
  bound_method a DEBUG "debug".

Section Repr.

(** The text a logger object formats to (its default representation),
    which this file does not fix. *)
Variable object_repr : logger → string.

(** A replacement field of an f-string, on whatever the attribute holds. *)
Definition format_attr (a : attr) : string :=
  match a with
  | AScalar v => format v
  | ALogger lg => object_repr lg
  end.

Definition when_ready_obj (server : gmap string attr) : M stream value :=
  lg ← getattr server "log";
  write ← info_of lg;
  write "Infokes API server is ready and accepting connections";;
  mret VNone.

Definition pre_fork_obj (server worker : gmap string attr) : M stream value :=
  mret VNone.

Definition post_fork_obj (server worker : gmap string attr) : M stream value :=
  lg ← getattr server "log";
  write ← info_of lg;
  p ← getattr worker "pid";
  write ("Worker " +:+ format_attr p +:+ " spawned");;
  mret VNone.

Definition pre_exec_obj (server : gmap string attr) : M stream value :=
  lg ← getattr server "log";
  write ← info_of lg;
  write "Forked child, re-executing";;
  mret VNone.

Definition worker_int_obj (worker : gmap string attr) : M stream value :=
  lg ← getattr worker "log";
  write ← info_of lg;
  write "Worker received INT or QUIT signal";;
  mret VNone.

Definition worker_abort_obj (worker : gmap string attr) : M stream value :=
  lg ← getattr worker "log";
  write ← info_of lg;
  write "Worker received SIGABRT signal";;
  mret VNone.

Definition pre_request_obj (worker req : gmap string attr) : M stream value :=
  lg ← getattr worker "log";
  write ← debug_of lg;
  m ← getattr req "method";
  p ← getattr req "path";
  write ("Request: " +:+ format_attr m +:+ " " +:+ format_attr p);;
  mret VNone.

Definition post_request_obj (worker req environ resp : gmap string attr)
  : M stream value :=
  lg ← getattr worker "log";
  write ← debug_of lg;
  s ← getattr resp "status";
  write ("Response: " +:+ format_attr s);;
  mret VNone.

(** One invocation by the manager, with whatever objects it passes. *)
Inductive call_obj : Type :=
| obj_when_ready (server : gmap string attr)
| obj_pre_fork (server worker : gmap string attr)
| obj_post_fork (server worker : gmap string attr)
| obj_pre_exec (server : gmap string attr)
| obj_worker_int (worker : gmap string attr)
| obj_worker_abort (worker : gmap string attr)
| obj_pre_request (worker req : gmap string attr)
| obj_post_request (worker req environ resp : gmap string attr).

Definition invoke_obj (c : call_obj) : M stream value :=
  match c with
  | obj_when_ready server => when_ready_obj server
  | obj_pre_fork server worker => pre_fork_obj server worker
  | obj_post_fork server worker => post_fork_obj server worker
  | obj_pre_exec server => pre_exec_obj server
  | obj_worker_int worker => worker_int_obj worker
  | obj_worker_abort worker => worker_abort_obj worker
  | obj_pre_request worker req => pre_request_obj worker req
  | obj_post_request worker req environ resp =>
      post_request_obj worker req environ resp
  end.

End Repr.




(** The synthetic descriptors as objects, attribute by attribute. *)
Definition object_of_arbiter (a : Synthetic.Arbiter) : gmap string attr :=
  <["log" := ALogger (Synthetic.arbiter_log a)]>
    (<["pid" := AScalar (Synthetic.arbiter_pid a)]> ∅).

Definition object_of_worker (w : Synthetic.Worker) : gmap string attr :=
  <["pid" := AScalar (Synthetic.worker_pid w)]>
    (<["log" := ALogger (Synthetic.worker_log w)]>
       (<["age" := AScalar (VInt (Synthetic.worker_age w))]>
          (<["booted" := AScalar (VBool (Synthetic.worker_booted w))]> ∅))).

Definition object_of_request (r : Synthetic.Request) : gmap string attr :=
  <["method" := AScalar (Synthetic.req_method r)]>
    (<["path" := AScalar (Synthetic.req_path r)]>
       (<["query" := AScalar (Synthetic.req_query r)]> ∅)).

Definition object_of_response (r : Synthetic.Response) : gmap string attr :=
  <["status" := AScalar (Synthetic.resp_status r)]>
    (<["sent" := AScalar (VInt (Synthetic.resp_sent r))]>
       (<["chunked" := AScalar (VBool (Synthetic.resp_chunked r))]> ∅)).

(** A typed invocation as the untyped one the manager makes; the environ
    dictionary has none of the attributes read. *)
Definition untyped
    (c : call Synthetic.Arbiter Synthetic.Worker Synthetic.Request
           (gmap string string) Synthetic.Response) : call_obj :=
  match c with
  | call_when_ready server => obj_when_ready (object_of_arbiter server)
  | call_pre_fork server worker =>
      obj_pre_fork (object_of_arbiter server) (object_of_worker worker)
  | call_post_fork server worker =>
      obj_post_fork (object_of_arbiter server) (object_of_worker worker)
  | call_pre_exec server => obj_pre_exec (object_of_arbiter server)
  | call_worker_int worker => obj_worker_int (object_of_worker worker)
  | call_worker_abort worker => obj_worker_abort (object_of_worker worker)
  | call_pre_request worker req =>
      obj_pre_request (object_of_worker worker) (object_of_request req)
  | call_post_request worker req environ resp =>
      obj_post_request (object_of_worker worker) (object_of_request req) ∅
        (object_of_response resp)
  end.

End Objects.

(** ** Substring membership *)

Module PyTheory.
Import Py.

Lemma prefix_app (sub post : string) : String.prefix sub (sub +:+ post) = true.
Proof.
  induction sub as [|a sub IH]; simpl.
  - by destruct post.
  - destruct (Ascii.ascii_dec a a) as [_|Hne]; [exact IH | by destruct Hne].
Qed.

Lemma prefix_inv (sub s : string) :
  String.prefix sub s = true → ∃ post, s = sub +:+ post.
Proof.
  revert s. induction sub as [|a sub IH]; intros s Hpre.
  - by exists s.
  - destruct s as [|b s]; simpl in Hpre; [discriminate|].
    destruct (Ascii.ascii_dec a b) as [->|_]; [|discriminate].
    destruct (IH s Hpre) as [post ->]. by exists post.
Qed.

Lemma contains_prefix (sub s : string) :
  String.prefix sub s = true → contains sub s = true.
Proof. destruct s; simpl; intros ->; reflexivity. Qed.

Lemma contains_cons (a : Ascii.ascii) (sub s : string) :
  contains sub s = true → contains sub (String a s) = true.
Proof.
  intros H.
  change (contains sub (String a s))
    with (if String.prefix sub (String a s) then true else contains sub s).
  rewrite H. by destruct (String.prefix sub (String a s)).
Qed.

Lemma contains_here (sub post : string) : contains sub (sub +:+ post) = true.
Proof. apply contains_prefix, prefix_app. Qed.

Lemma contains_app_l (pre sub s : string) :
  contains sub s = true → contains sub (pre +:+ s) = true.
Proof.
  intros H. induction pre as [|a pre IH]; [exact H|].
  exact (contains_cons a _ _ IH).
Qed.

Lemma contains_app (pre sub post : string) :
  contains sub (pre +:+ sub +:+ post) = true.
Proof. apply contains_app_l, contains_here. Qed.

Lemma prefix_refl (s : string) : String.prefix s s = true.
Proof.
  induction s as [|a s IH]; simpl; [reflexivity|].
  destruct (Ascii.ascii_dec a a) as [_|Hne]; [exact IH | by destruct Hne].
Qed.

Lemma contains_refl (s : string) : contains s s = true.
Proof. apply contains_prefix, prefix_refl. Qed.

Lemma contains_unfold (sub s : string) :
  contains sub s =
    if String.prefix sub s then true
    else match s with
         | EmptyString => false
         | String _ s' => contains sub s'
         end.
Proof. by destruct s. Qed.

(** [contains] decides that [sub] occurs in [s]. *)
Lemma contains_spec (sub s : string) :
  contains sub s = true ↔ ∃ pre post, s = pre +:+ sub +:+ post.
Proof.
  split.
  - induction s as [|a s IH]; rewrite contains_unfold.
    + destruct (String.prefix sub EmptyString) eqn:E; [|discriminate].
      intros _. destruct (prefix_inv _ _ E) as [post ->].
      by exists EmptyString, post.
    + destruct (String.prefix sub (String a s)) eqn:E.
      * intros _. destruct (prefix_inv _ _ E) as [post Hs].
        exists EmptyString, post. exact Hs.
      * intros H. destruct (IH H) as (pre & post & ->).
        by exists (String a pre), post.
  - intros (pre & post & ->). apply contains_app.
Qed.

Example str_int : str (VInt 4321) = "4321".
Proof. by vm_compute. Qed.

Example str_negative_int : str (VInt (-17)) = "-17".
Proof. by vm_compute. Qed.

Example str_none : str VNone = "None".
Proof. reflexivity. Qed.

Example contains_absent : contains "4321" "Worker 4312 spawned" = false.
Proof. by vm_compute. Qed.

End PyTheory.


(** ** The loaded configuration *)

Module ConfTheory.
Import Py Conf.

Lemma load_detected (n : Z) : load (host_with n) = Ok (namespace_at n).
Proof. reflexivity. Qed.

(** Without a processor count the load stops at the [workers] line. *)
Lemma load_undetected :
  load {| os_cpu_count := None |} = Raise NotImplementedError.
Proof. reflexivity. Qed.

Lemma load_inv (h : host) (ns : gmap string binding) :
  load h = Ok ns → ∃ n, os_cpu_count h = Some n ∧ ns = namespace_at n.
Proof.
  destruct h as [[n|]]; intros Hload.
  - exists n. split; [reflexivity|].
    change (load (host_with n) = Ok ns) in Hload.
    rewrite load_detected in Hload. by injection Hload.
  - rewrite load_undetected in Hload. discriminate.
Qed.

Ltac lookup_literal := intros; vm_compute; reflexivity.

Lemma lookup_workers (n : Z) :
  namespace_at n !! "workers" = Some (Scalar (VInt (n * 2 + 1))).
Proof. lookup_literal. Qed.

Lemma lookup_raw_env (n : Z) :
  namespace_at n !! "raw_env" =
    Some (ListOf [VStr "PYTHONPATH=/opt/infokes/app"; VStr "INFOKES_ENV=production"]).
Proof. lookup_literal. Qed.

Lemma callbacks_at (n : Z) : length (callbacks (namespace_at n)) = 8%nat.
Proof. lookup_literal. Qed.

(** C1. On every host whose processor count is detected, the load succeeds
    and each setting written as a literal is bound to exactly that literal:
    [bind] to "0.0.0.0:8000", [backlog] to 2048, [worker_connections] to
    1000, [max_requests] to 1000, [max_requests_jitter] to 50, [timeout] to
    30, [keepalive] to 2, [limit_request_line] to 4096,
    [limit_request_fields] to 100, [limit_request_field_size] to 8190, and
    likewise the remaining literal settings of the file, [raw_env]
    included. *)
Theorem literal_fields (n : Z) :
  ∃ ns, load (host_with n) = Ok ns ∧
    ns !! "bind" = Some (Scalar (VStr "0.0.0.0:8000")) ∧
    ns !! "backlog" = Some (Scalar (VInt 2048)) ∧
    ns !! "worker_connections" = Some (Scalar (VInt 1000)) ∧
    ns !! "max_requests" = Some (Scalar (VInt 1000)) ∧
    ns !! "max_requests_jitter" = Some (Scalar (VInt 50)) ∧
    ns !! "timeout" = Some (Scalar (VInt 30)) ∧
    ns !! "keepalive" = Some (Scalar (VInt 2)) ∧
    ns !! "limit_request_line" = Some (Scalar (VInt 4096)) ∧
    ns !! "limit_request_fields" = Some (Scalar (VInt 100)) ∧
    ns !! "limit_request_field_size" = Some (Scalar (VInt 8190)) ∧
    ns !! "worker_class" = Some (Scalar (VStr "gevent")) ∧
    ns !! "proc_name" = Some (Scalar (VStr "infokes-api")) ∧
    ns !! "accesslog" = Some (Scalar (VStr "/var/log/gunicorn/access.log")) ∧
    ns !! "errorlog" = Some (Scalar (VStr "/var/log/gunicorn/error.log")) ∧
    ns !! "loglevel" = Some (Scalar (VStr "info")) ∧
    ns !! "access_log_format" =
      Some (Scalar (VStr ("%(h)s %(l)s %(u)s %(t)s " +:+ dquote +:+ "%(r)s" +:+
                          dquote +:+ " %(s)s %(b)s " +:+ dquote +:+ "%(f)s" +:+
                          dquote +:+ " " +:+ dquote +:+ "%(a)s" +:+ dquote))) ∧
    ns !! "daemon" = Some (Scalar (VBool false)) ∧
    ns !! "pidfile" = Some (Scalar (VStr "/var/run/gunicorn/gunicorn.pid")) ∧
    ns !! "umask" = Some (Scalar (VInt 0)) ∧
    ns !! "user" = Some (Scalar VNone) ∧
    ns !! "group" = Some (Scalar VNone) ∧
    ns !! "tmp_upload_dir" = Some (Scalar VNone) ∧
    ns !! "preload_app" = Some (Scalar (VBool true)) ∧
    ns !! "worker_tmp_dir" = Some (Scalar (VStr "/dev/shm")) ∧
    ns !! "raw_env" =
      Some (ListOf [VStr "PYTHONPATH=/opt/infokes/app"; VStr "INFOKES_ENV=production"]).
Proof.
  exists (namespace_at n). split; [apply load_detected|].
  repeat split; lookup_literal.
Qed.

(** C2. For every processor count [n] the host reports, the loaded
    configuration binds [workers] to [2 * n + 1]. *)
Theorem workers_count (n : Z) :
  ∃ ns, load (host_with n) = Ok ns ∧
    ns !! "workers" = Some (Scalar (VInt (2 * n + 1))).
Proof.
  exists (namespace_at n). split; [apply load_detected|].
  rewrite lookup_workers. do 3 f_equal. lia.
Qed.

(** C3. [raw_env] is bound to a list of exactly two entries,
    "PYTHONPATH=/opt/infokes/app" and then "INFOKES_ENV=production", with
    no entry repeated. *)
Theorem raw_env_entries (n : Z) :
  ∃ ns l, load (host_with n) = Ok ns ∧
    ns !! "raw_env" = Some (ListOf l) ∧
    l = [VStr "PYTHONPATH=/opt/infokes/app"; VStr "INFOKES_ENV=production"] ∧
    length l = 2%nat ∧
    NoDup l.
Proof.
  eexists (namespace_at n), _. split; [apply load_detected|].
  split; [apply lookup_raw_env|]. split; [reflexivity|]. split; [reflexivity|].
  apply NoDup_cons. split.
  - intros Hin. apply list_elem_of_singleton in Hin. discriminate.
  - apply NoDup_singleton.
Qed.

(** On a four-processor host the loaded namespace does not define seven
    functions. *)
Lemma callbacks_not_seven :
  ∃ ns, load (host_with 4) = Ok ns ∧ length (callbacks ns) ≠ 7%nat.
Proof.
  exists (namespace_at 4). split; [apply load_detected|].
  rewrite callbacks_at. discriminate.
Qed.

End ConfTheory.

(** ** The callbacks *)

Module HooksTheory.
Import Py Conf Hooks Table PyTheory.

Lemma emit_then_none (lg : logger) (lvl : level) (msg : string) (st : stream) :
  (emit lg lvl msg;; mret VNone) st =
    Ok (VNone, st ++ [(lg, {| levelname := lvl; message := msg |})]).
Proof. reflexivity. Qed.

Section Equations.
Context {Server Worker Request Environ Response : Type}.
Context `{!HasLog Server, !HasLog Worker, !HasPid Worker}.
Context `{!HasMethod Request, !HasPath Request, !HasStatus Response}.

(** What each callback appends, as a function of its arguments alone. *)
Lemma post_fork_eq (server : Server) (worker : Worker) (st : stream) :
  post_fork server worker st =
    Ok (VNone, st ++ [(log server,
          {| levelname := INFO;
             message := "Worker " +:+ str (pid worker) +:+ " spawned" |})]).
Proof. apply emit_then_none. Qed.

Lemma pre_request_eq (worker : Worker) (req : Request) (st : stream) :
  pre_request worker req st =
    Ok (VNone, st ++ [(log worker,
          {| levelname := DEBUG;
             message := "Request: " +:+ str (method req) +:+ " " +:+ str (path req) |})]).
Proof. apply emit_then_none. Qed.

Lemma post_request_eq (worker : Worker) (req : Request) (environ : Environ)
    (resp : Response) (st : stream) :
  post_request worker req environ resp st =
    Ok (VNone, st ++ [(log worker,
          {| levelname := DEBUG; message := "Response: " +:+ str (status resp) |})]).
Proof. apply emit_then_none. Qed.

(** Whatever the process id, method, path or status is, its text is in the
    line. *)
Lemma post_fork_mentions_pid (worker : Worker) :
  contains (str (pid worker)) ("Worker " +:+ str (pid worker) +:+ " spawned") = true.
Proof. apply contains_app. Qed.

Lemma pre_request_mentions_method (req : Request) :
  contains (str (method req))
    ("Request: " +:+ str (method req) +:+ " " +:+ str (path req)) = true.
Proof. apply contains_app. Qed.

Lemma pre_request_mentions_path (req : Request) :
  contains (str (path req))
    ("Request: " +:+ str (method req) +:+ " " +:+ str (path req)) = true.
Proof. do 3 apply contains_app_l. apply contains_refl. Qed.

Lemma post_request_mentions_status (resp : Response) :
  contains (str (status resp)) ("Response: " +:+ str (status resp)) = true.
Proof. apply contains_app_l, contains_refl. Qed.

(** Every invocation returns [None] after appending a list of records
    that the arguments determine. *)
Lemma invoke_appends (c : call Server Worker Request Environ Response) :
  ∃ recs, (length recs ≤ 1)%nat ∧
    (levelname ∘ snd) <$> recs = table_levels (callee c) ∧
    ∀ st : stream, invoke c st = Ok (VNone, st ++ recs).
Proof.
  destruct c; simpl;
    try (eexists [_]; split; [simpl; lia|];
         split; [|intros st; apply emit_then_none]; reflexivity).
  exists []. split; [simpl; lia | split; [reflexivity|]].
  intros st. unfold pre_fork, mret, M_ret. by rewrite app_nil_r.
Qed.
End Equations.

Example post_fork_forked :
  post_fork Synthetic.arbiter0 Synthetic.worker4321 [] =
    Ok (VNone, [(0%nat, {| levelname := INFO; message := "Worker 4321 spawned" |})]).
Proof. by vm_compute. Qed.

Example post_fork_booting :
  post_fork Synthetic.arbiter0 Synthetic.worker_booting [] =
    Ok (VNone, [(0%nat, {| levelname := INFO; message := "Worker [booting] spawned" |})]).
Proof. by vm_compute. Qed.

Example pre_request_health :
  pre_request Synthetic.worker4321 Synthetic.get_health_verbose [] =
    Ok (VNone, [(1%nat, {| levelname := DEBUG; message := "Request: GET /health" |})]).
Proof. by vm_compute. Qed.

Example post_request_ok :
  post_request Synthetic.worker4321 Synthetic.get_health Synthetic.environ1
    Synthetic.resp200_chunked [] =
    Ok (VNone, [(1%nat, {| levelname := DEBUG; message := "Response: 200" |})]).
Proof. by vm_compute. Qed.

(** C4. [post_fork], called with any server and any worker whose [pid] is
    4321, returns after appending exactly one record to the stream; the
    record is written on the server's logger at level INFO and its message
    contains "4321". *)
Theorem post_fork_4321 `{!HasLog Server, !HasPid Worker}
    (server : Server) (worker : Worker) (st : stream) :
  pid worker = VInt 4321 →
  ∃ r, post_fork server worker st = Ok (VNone, st ++ [(log server, r)]) ∧
       levelname r = INFO ∧
       contains "4321" (message r) = true.
Proof.
  intros Hpid. eexists. split; [apply post_fork_eq|].
  split; [reflexivity|]. simpl. rewrite Hpid. by vm_compute.
Qed.

Lemma post_fork_4321_witness :
  pid Synthetic.worker4321 = VInt 4321 ∧
  ∃ r, post_fork Synthetic.arbiter0 Synthetic.worker4321 [] =
         Ok (VNone, [] ++ [(log Synthetic.arbiter0, r)]) ∧
       levelname r = INFO ∧
       contains "4321" (message r) = true.
Proof.
  split; [reflexivity|].
  apply (post_fork_4321 Synthetic.arbiter0 Synthetic.worker4321 []).
  reflexivity.
Defined.

(** C5. [pre_request], called with any worker and any request whose method
    is "GET" and whose path is "/health", returns after appending exactly
    one record; the record is written on the worker's logger at level DEBUG
    and its message contains both "GET" and "/health". *)
Theorem pre_request_get_health `{!HasLog Worker, !HasMethod Request, !HasPath Request}
    (worker : Worker) (req : Request) (st : stream) :
  method req = VStr "GET" →
  path req = VStr "/health" →
  ∃ r, pre_request worker req st = Ok (VNone, st ++ [(log worker, r)]) ∧
       levelname r = DEBUG ∧
       contains "GET" (message r) = true ∧
       contains "/health" (message r) = true.
Proof.
  intros Hmethod Hpath. eexists. split; [apply pre_request_eq|].
  split; [reflexivity|]. simpl. rewrite Hmethod, Hpath. by vm_compute.
Qed.

Lemma pre_request_get_health_witness :
  method Synthetic.get_health = VStr "GET" ∧
  path Synthetic.get_health = VStr "/health" ∧
  ∃ r, pre_request Synthetic.worker4321 Synthetic.get_health [] =
         Ok (VNone, [] ++ [(log Synthetic.worker4321, r)]) ∧
       levelname r = DEBUG ∧
       contains "GET" (message r) = true ∧
       contains "/health" (message r) = true.
Proof.
  split; [reflexivity|]. split; [reflexivity|].
  apply (pre_request_get_health Synthetic.worker4321 Synthetic.get_health []);
    reflexivity.
Defined.

(** C6. [post_request], called with any worker, request and environ and a
    response whose status is "200", returns after appending exactly one
    record; the record is written on the worker's logger at level DEBUG and
    its message contains "200". *)
Theorem post_request_200 `{!HasLog Worker, !HasStatus Response}
    {Request Environ : Type}
    (worker : Worker) (req : Request) (environ : Environ) (resp : Response)
    (st : stream) :
  status resp = VStr "200" →
  ∃ r, post_request worker req environ resp st =
         Ok (VNone, st ++ [(log worker, r)]) ∧
       levelname r = DEBUG ∧
       contains "200" (message r) = true.
Proof.
  intros Hstatus. eexists. split; [apply post_request_eq|].
  split; [reflexivity|]. simpl. rewrite Hstatus. by vm_compute.
Qed.

Lemma post_request_200_witness :
  status Synthetic.resp200 = VStr "200" ∧
  ∃ r, post_request Synthetic.worker4321 Synthetic.get_health Synthetic.environ1
         Synthetic.resp200 [] =
         Ok (VNone, [] ++ [(log Synthetic.worker4321, r)]) ∧
       levelname r = DEBUG ∧
       contains "200" (message r) = true.
Proof.
  split; [reflexivity|].
  apply (post_request_200 Synthetic.worker4321 Synthetic.get_health
           Synthetic.environ1 Synthetic.resp200 []).
  reflexivity.
Defined.

(** C7, amended. The loaded configuration defines exactly eight callbacks,
    and every invocation of one returns after appending at most one record;
    the records appended are fixed by the arguments and are the same from
    every starting stream. *)
Theorem eight_stateless_callbacks
    `{!HasLog Server, !HasLog Worker, !HasPid Worker}
    `{!HasMethod Request, !HasPath Request, !HasStatus Response}
    {Environ : Type} (n : Z) :
  (∃ ns, load (host_with n) = Ok ns ∧ length (callbacks ns) = 8%nat) ∧
  ∀ c : call Server Worker Request Environ Response,
    ∃ recs, (length recs ≤ 1)%nat ∧
      ∀ st : stream, invoke c st = Ok (VNone, st ++ recs).
Proof.
  split.
  - exists (namespace_at n). split; [reflexivity|]. by vm_compute.
  - intros c. destruct (invoke_appends c) as (recs & Hlen & _ & Hrun).
    by exists recs.
Qed.

(** C9. [pre_fork] does nothing: on any server and any worker it returns
    [None] and leaves the stream as it found it. *)
Theorem pre_fork_noop {Server Worker : Type}
    (server : Server) (worker : Worker) (st : stream) :
  pre_fork server worker st = Ok (VNone, st).
Proof. reflexivity. Qed.

(** C10. The two request callbacks depend only on what they log.  Two
    invocations of [pre_request] on requests with equal method and equal
    path append the same record, each on its own worker's logger, whatever
    the workers, the other request attributes and the starting streams are;
    two invocations of [post_request] on responses with equal status append
    the same record, whatever the workers, requests, environs, other
    response attributes and starting streams are. *)
Theorem request_hooks_depend_on_logged_fields
    `{!HasLog Worker, !HasMethod Request, !HasPath Request, !HasStatus Response}
    {Environ : Type} :
  (∀ (w1 w2 : Worker) (r1 r2 : Request) (st1 st2 : stream),
     method r1 = method r2 → path r1 = path r2 →
     ∃ rec, pre_request w1 r1 st1 = Ok (VNone, st1 ++ [(log w1, rec)]) ∧
            pre_request w2 r2 st2 = Ok (VNone, st2 ++ [(log w2, rec)])) ∧
  (∀ (w1 w2 : Worker) (r1 r2 : Request) (e1 e2 : Environ) (p1 p2 : Response)
     (st1 st2 : stream),
     status p1 = status p2 →
     ∃ rec, post_request w1 r1 e1 p1 st1 = Ok (VNone, st1 ++ [(log w1, rec)]) ∧
            post_request w2 r2 e2 p2 st2 = Ok (VNone, st2 ++ [(log w2, rec)])).
Proof.
  split.
  - intros w1 w2 r1 r2 st1 st2 Hmethod Hpath.
    eexists. split; [apply pre_request_eq|].
    rewrite Hmethod, Hpath. apply pre_request_eq.
  - intros w1 w2 r1 r2 e1 e2 p1 p2 st1 st2 Hstatus.
    eexists. split; [apply post_request_eq|].
    rewrite Hstatus. apply post_request_eq.
Qed.

Lemma request_hooks_depend_on_logged_fields_witness :
  (method Synthetic.get_health = method Synthetic.get_health_verbose ∧
   path Synthetic.get_health = path Synthetic.get_health_verbose ∧
   ∃ rec,
     pre_request Synthetic.worker4321 Synthetic.get_health [] =
       Ok (VNone, [] ++ [(log Synthetic.worker4321, rec)]) ∧
     pre_request Synthetic.worker_booting Synthetic.get_health_verbose
       [(7%nat, {| levelname := INFO; message := "earlier" |})] =
       Ok (VNone, [(7%nat, {| levelname := INFO; message := "earlier" |})] ++
                  [(log Synthetic.worker_booting, rec)])) ∧
  (status Synthetic.resp200 = status Synthetic.resp200_chunked ∧
   ∃ rec,
     post_request Synthetic.worker4321 Synthetic.get_health Synthetic.environ0
       Synthetic.resp200 [] =
       Ok (VNone, [] ++ [(log Synthetic.worker4321, rec)]) ∧
     post_request Synthetic.worker_booting Synthetic.get_health_verbose
       Synthetic.environ1 Synthetic.resp200_chunked [] =
       Ok (VNone, [] ++ [(log Synthetic.worker_booting, rec)])).
Proof.
  destruct (request_hooks_depend_on_logged_fields
              (Worker := Synthetic.Worker) (Request := Synthetic.Request)
              (Response := Synthetic.Response) (Environ := gmap string string))
    as [Hpre Hpost].
  split.
  - split; [reflexivity|]. split; [reflexivity|].
    apply Hpre; reflexivity.
  - split; [reflexivity|]. apply Hpost. reflexivity.
Defined.

End HooksTheory.

(** ** Strings: cancellation, suffixes and splitting at a space *)

Module TextTheory.
Import Py Runs PyTheory.

Lemma string_length_app (s t : string) :
  String.length (s +:+ t) = (String.length s + String.length t)%nat.
Proof. induction s as [|a s IH]; simpl; [reflexivity | by rewrite IH]. Qed.

Lemma app_cons (a : Ascii.ascii) (s t : string) :
  String a s +:+ t = String a (s +:+ t).
Proof. reflexivity. Qed.

(** A common suffix cancels. *)
Lemma app_inj_r (s1 s2 t : string) : s1 +:+ t = s2 +:+ t → s1 = s2.
Proof.
  revert s2. induction s1 as [|a s1 IH]; intros [|b s2] Heq.
  - reflexivity.
  - apply (f_equal String.length) in Heq.
    rewrite !string_length_app in Heq. simpl in Heq. lia.
  - apply (f_equal String.length) in Heq.
    rewrite !string_length_app in Heq. simpl in Heq. lia.
  - rewrite !app_cons in Heq. injection Heq as -> Heq. f_equal. by apply IH.
Qed.

Lemma ends_with_unfold (suf s : string) :
  ends_with suf s =
    if String.eqb suf s then true
    else match s with
         | EmptyString => false
         | String _ s' => ends_with suf s'
         end.
Proof. by destruct s. Qed.

Lemma ends_with_refl (s : string) : ends_with s s = true.
Proof. rewrite ends_with_unfold. by rewrite String.eqb_refl. Qed.

Lemma ends_with_app_l (pre suf s : string) :
  ends_with suf s = true → ends_with suf (pre +:+ s) = true.
Proof.
  intros H. induction pre as [|a pre IH]; [exact H|].
  rewrite app_cons, ends_with_unfold, IH.
  by destruct (String.eqb suf (String a (pre +:+ s))).
Qed.

Lemma prefix_cons (a b : Ascii.ascii) (s t : string) :
  String.prefix (String a s) (String b t) =
    if Ascii.ascii_dec a b then String.prefix s t else false.
Proof. reflexivity. Qed.

(** A single space is found at the head or further on. *)
Lemma contains_space_cons (c : Ascii.ascii) (s : string) :
  contains " " (String c s) = false →
  c ≠ Ascii.ascii_of_nat 32 ∧ contains " " s = false.
Proof.
  rewrite contains_unfold, (prefix_cons _ c EmptyString s).
  destruct (Ascii.ascii_dec _ c) as [<-|Hne].
  - by destruct s.
  - intros H. split; [by intros -> | exact H].
Qed.

(** Two texts without a space, each followed by a space and a rest: the
    first space tells where the text ends. *)
Lemma split_at_space (a a' b b' : string) :
  contains " " a = false → contains " " a' = false →
  a +:+ " " +:+ b = a' +:+ " " +:+ b' → a = a' ∧ b = b'.
Proof.
  revert a'. induction a as [|c a IH]; intros [|c' a'] Ha Ha' Heq.
  - split; [reflexivity|]. by injection Heq.
  - rewrite app_cons in Heq. injection Heq as <- _.
    by destruct (contains_space_cons _ _ Ha') as [[] _].
  - rewrite app_cons in Heq. injection Heq as -> _.
    by destruct (contains_space_cons _ _ Ha) as [[] _].
  - rewrite !app_cons in Heq. injection Heq as -> Heq.
    destruct (contains_space_cons _ _ Ha) as [_ Ha1].
    destruct (contains_space_cons _ _ Ha') as [_ Ha1'].
    destruct (IH a' Ha1 Ha1' Heq) as [-> ->]. by split.
Qed.

End TextTheory.

(** ** The namespace the body builds *)

Module NamespaceTheory.
Import Py Conf Names ConfTheory.

Lemma Ok_inj {A : Type} (a b : A) : Ok a = Ok b → a = b.
Proof. by intros [=]. Qed.

(** One statement of the body at a time. *)
Lemma exec_assign_bind {A : Type} (name : string) (b : binding)
    (k : M (gmap string binding) A) (ns : gmap string binding) :
  exec (assign name b;; k) ns = exec k (<[name := b]> ns).
Proof. reflexivity. Qed.

Lemma exec_assign (name : string) (b : binding) (ns : gmap string binding) :
  exec (assign name b) ns = Ok (<[name := b]> ns).
Proof. reflexivity. Qed.

Lemma exec_cpu_count {A : Type} (h : host) (k : Z → M (gmap string binding) A)
    (ns : gmap string binding) :
  is_Some (ns !! "multiprocessing") →
  exec (n ← multiprocessing_cpu_count h; k n) ns =
    match os_cpu_count h with
    | Some n => exec (k n) ns
    | None => Raise NotImplementedError
    end.
Proof.
  intros [b Hb]. unfold exec, mbind, M_bind, multiprocessing_cpu_count.
  rewrite Hb. by destruct (os_cpu_count h).
Qed.

Lemma imported (b : binding) (ns : gmap string binding) :
  is_Some (<["backlog" := Scalar (VInt 2048)]>
             (<["bind" := Scalar (VStr "0.0.0.0:8000")]>
                (<["os" := Module_ "os"]>
                   (<["multiprocessing" := b]> ns))) !! "multiprocessing").
Proof. rewrite !lookup_insert_ne by done. rewrite lookup_insert_eq. by eexists. Qed.

Ltac step_body :=
  unfold gunicorn_conf, import_, def;
  rewrite !exec_assign_bind, exec_cpu_count by apply imported;
  simpl os_cpu_count; cbv iota.

(** The body as a chain of bindings over the namespace it starts from. *)
Lemma exec_detected (n : Z) (ns0 : gmap string binding) :
  exec (gunicorn_conf (host_with n)) ns0 = Ok (namespace_at n ∪ ns0).
Proof.
  step_body. rewrite !exec_assign_bind, exec_assign. f_equal.
  rewrite <- (left_id_L ∅ (∪) ns0) at 1.
  rewrite !insert_union_l. f_equal.
Qed.

Lemma exec_undetected (ns0 : gmap string binding) :
  exec (gunicorn_conf {| os_cpu_count := None |}) ns0 = Raise NotImplementedError.
Proof. by step_body. Qed.

Lemma dom_namespace_at (n : Z) :
  dom (namespace_at n) =@{gset string} list_to_set declared_names.
Proof. apply (bool_decide_unpack _). by vm_compute. Qed.

Lemma lookup_elsewhere (n m : Z) (name : string) :
  name ≠ "workers" → namespace_at n !! name = namespace_at m !! name.
Proof.
  intros Hne.
  assert (Hn := exec_detected n ∅). assert (Hm := exec_detected m ∅).
  rewrite (right_id_L ∅ (∪)) in Hn, Hm.
  revert Hn Hm. step_body. rewrite !exec_assign_bind, !exec_assign.
  intros Hn Hm. apply Ok_inj in Hn, Hm. rewrite <- Hn, <- Hm.
  rewrite !lookup_insert.
  repeat (case_decide; [try done; by subst|]).
  done.
Qed.

Lemma callbacks_list (n : Z) :
  callbacks (namespace_at n) =
    (λ h, (def_name h, Function h)) <$>
      [WorkerInt; WorkerAbort; WhenReady; PostFork; PostRequest; PreExec;
       PreFork; PreRequest].
Proof. vm_compute. reflexivity. Qed.

(** X1. Whatever namespace the body starts from, it raises
    [NotImplementedError] when the host reports no processor count and
    otherwise returns the starting namespace overlaid with the bindings of the
    file; it never fails to find [multiprocessing]. *)
Theorem body_outcome (h : host) (ns0 : gmap string binding) :
  exec (gunicorn_conf h) ns0 =
    match os_cpu_count h with
    | Some n => Ok (namespace_at n ∪ ns0)
    | None => Raise NotImplementedError
    end.
Proof.
  destruct h as [[n|]]; simpl.
  - apply exec_detected.
  - apply exec_undetected.
Qed.

(** X2. The loaded configuration binds exactly the names the file assigns,
    imports or defines; in particular [keyfile] and [certfile], which the
    file only mentions in comments, are not set. *)
Theorem declared_names_exact (n : Z) :
  ∃ ns, load (host_with n) = Ok ns ∧
    dom ns =@{gset string} list_to_set declared_names ∧
    ns !! "keyfile" = None ∧
    ns !! "certfile" = None.
Proof.
  exists (namespace_at n). split; [apply load_detected|].
  split; [apply dom_namespace_at|].
  split; apply not_elem_of_dom; rewrite dom_namespace_at;
    apply (bool_decide_unpack _); by vm_compute.
Qed.

(** X3. Executing the body again over a namespace an earlier load produced
    gives exactly what a fresh load gives, also when the processor count has
    changed in between: nothing of the earlier load survives. *)
Theorem reload_is_fresh_load (n m : Z) :
  ∃ old, load (host_with m) = Ok old ∧
    exec (gunicorn_conf (host_with n)) old = load (host_with n).
Proof.
  exists (namespace_at m). split; [apply load_detected|].
  rewrite exec_detected, load_detected. apply (f_equal Ok).
  apply map_eq. intros name. rewrite lookup_union.
  destruct (namespace_at n !! name) as [b|] eqn:E.
  - by destruct (namespace_at m !! name).
  - apply not_elem_of_dom in E. rewrite dom_namespace_at in E.
    rewrite <- (dom_namespace_at m) in E. apply not_elem_of_dom in E.
    by rewrite E.
Qed.

(** X4. [workers] is the only binding that depends on the host: the
    configuration loaded with [n] processors is the one loaded with [m]
    processors with [workers] replaced by [n * 2 + 1]. *)
Theorem only_workers_depends_on_host (n m : Z) :
  ∃ ns_n ns_m, load (host_with n) = Ok ns_n ∧ load (host_with m) = Ok ns_m ∧
    ns_n = <["workers" := Scalar (VInt (n * 2 + 1))]> ns_m.
Proof.
  exists (namespace_at n), (namespace_at m).
  split; [apply load_detected|]. split; [apply load_detected|].
  apply map_eq. intros name. destruct (decide (name = "workers")) as [->|Hne].
  - rewrite lookup_insert_eq. apply lookup_workers.
  - rewrite lookup_insert_ne by done. by apply lookup_elsewhere.
Qed.

(** X5. Each of the eight functions is bound under its own name, and no
    other name of the loaded configuration is bound to a function. *)
Theorem callbacks_registered (n : Z) :
  ∃ ns, load (host_with n) = Ok ns ∧
    (∀ h, ns !! def_name h = Some (Function h)) ∧
    (∀ name h, ns !! name = Some (Function h) → name = def_name h).
Proof.
  exists (namespace_at n). split; [apply load_detected|]. split.
  - intros h. destruct h; vm_compute; reflexivity.
  - intros name h Hlookup.
    assert (Hin : (name, Function h) ∈ callbacks (namespace_at n)).
    { apply list_elem_of_filter. split; [reflexivity|].
      by apply elem_of_map_to_list. }
    rewrite callbacks_list in Hin.
    apply list_elem_of_fmap in Hin as (h' & Heq & _).
    by injection Heq as -> ->.
Qed.

(** X6. On a host with at least one processor, [workers] is an odd number,
    at least three, and larger than the processor count. *)
Theorem workers_bounds (n : Z) :
  (1 ≤ n)%Z →
  ∃ ns w, load (host_with n) = Ok ns ∧
    ns !! "workers" = Some (Scalar (VInt w)) ∧
    (3 ≤ w)%Z ∧ Z.odd w = true ∧ (n < w)%Z.
Proof.
  intros Hn. exists (namespace_at n), (n * 2 + 1)%Z.
  split; [apply load_detected|]. split; [apply lookup_workers|].
  split; [lia|]. split; [|lia].
  rewrite Z.add_comm, Z.mul_comm, Z.odd_add_mul_2. reflexivity.
Qed.

Lemma workers_bounds_witness :
  (1 ≤ 4)%Z ∧
  ∃ ns w, load (host_with 4) = Ok ns ∧
    ns !! "workers" = Some (Scalar (VInt w)) ∧
    (3 ≤ w)%Z ∧ Z.odd w = true ∧ (4 < w)%Z.
Proof. split; [lia|]. apply (workers_bounds 4). lia. Defined.

End NamespaceTheory.

(** ** Runs of callbacks and what the lines tell *)

Module RunsTheory.
Import Py Conf Hooks Runs PyTheory TextTheory HooksTheory.

Lemma single_record_inv {A : Type} (v v' : A) (st : stream)
    (lg lg' : logger) (r r' : LogRecord) :
  Ok (v, st ++ [(lg, r)]) = Ok (v', st ++ [(lg', r')]) → lg = lg' ∧ r = r'.
Proof.
  intros [= _ Heq]. apply app_inv_head in Heq. by injection Heq as -> ->.
Qed.

Lemma spawned_ends (p : string) :
  ends_with " spawned" ("Worker " +:+ p +:+ " spawned") = true.
Proof. do 2 apply ends_with_app_l. apply ends_with_refl. Qed.

Section Generic.
Context {Server Worker Request Environ Response : Type}.
Context `{!HasLog Server, !HasLog Worker, !HasPid Worker}.
Context `{!HasMethod Request, !HasPath Request, !HasStatus Response}.

Lemma invoke_records (c : call Server Worker Request Environ Response)
    (st : stream) :
  invoke c st = Ok (VNone, st ++ records c).
Proof.
  destruct c; try reflexivity.
  unfold records. simpl. unfold pre_fork, mret, M_ret. by rewrite app_nil_r.
Qed.

Lemma length_records (c : call Server Worker Request Environ Response) :
  length (records c) = if decide (callee c ≠ PreFork) then 1%nat else 0%nat.
Proof. by destruct c. Qed.

Lemma invoke_all_records (cs : list (call Server Worker Request Environ Response))
    (st : stream) :
  invoke_all cs st = Ok (VNone, st ++ (cs ≫= records)).
Proof.
  revert st. induction cs as [|c cs IH]; intros st.
  - simpl. unfold mret, M_ret. by rewrite app_nil_r.
  - change (invoke_all (c :: cs) st)
      with (match invoke c st with
            | Ok (_, st') => invoke_all cs st'
            | Raise e => Raise e
            end).
    rewrite invoke_records, IH, bind_cons. by rewrite (assoc_L (++)).
Qed.

Lemma length_bind_records (cs : list (call Server Worker Request Environ Response)) :
  length (cs ≫= records) = length (filter (λ c, callee c ≠ PreFork) cs).
Proof.
  induction cs as [|c cs IH]; [reflexivity|].
  rewrite bind_cons, length_app, IH, length_records, filter_cons.
  by destruct (decide (callee c ≠ PreFork)).
Qed.

End Generic.

(** A line that ends in " spawned" is not one of the two signal lines. *)
Ltac spawned_vs_signal H :=
  apply (f_equal (ends_with " spawned")) in H;
  rewrite spawned_ends in H; vm_compute in H; discriminate H.

Ltac distinct_lines H :=
  first [ spawned_vs_signal H | cbv in H; discriminate H ].

(** X7. A run of callbacks, one after the other from any stream and in any
    order, never raises; it keeps the stream it started from and appends what
    each invocation writes, in call order: one record for every invocation
    other than [pre_fork]. *)
Theorem invocations_in_sequence
    `{!HasLog Server, !HasLog Worker, !HasPid Worker}
    `{!HasMethod Request, !HasPath Request, !HasStatus Response}
    {Environ : Type}
    (cs : list (call Server Worker Request Environ Response)) (st : stream) :
  invoke_all cs st = Ok (VNone, st ++ (cs ≫= records)) ∧
  length (cs ≫= records) = length (filter (λ c, callee c ≠ PreFork) cs).
Proof. split; [apply invoke_all_records | apply length_bind_records]. Qed.

(** X8. The message tells which callback wrote it: two invocations that
    write records with the same message are invocations of the same
    callback, whatever their arguments are. *)
Theorem line_identifies_callback
    `{!HasLog Server, !HasLog Worker, !HasPid Worker}
    `{!HasMethod Request, !HasPath Request, !HasStatus Response}
    {Environ : Type}
    (c1 c2 : call Server Worker Request Environ Response)
    (lg1 lg2 : logger) (r1 r2 : LogRecord) :
  records c1 = [(lg1, r1)] → records c2 = [(lg2, r2)] →
  message r1 = message r2 → callee c1 = callee c2.
Proof.
  intros H1 H2 Hmsg.
  destruct c1; try discriminate H1; injection H1 as <- <-;
    destruct c2; try discriminate H2; injection H2 as <- <-;
    try reflexivity; exfalso; simpl in Hmsg;
    first [ distinct_lines Hmsg | symmetry in Hmsg; distinct_lines Hmsg ].
Qed.

Lemma line_identifies_callback_witness :
  records (Environ := gmap string string) (Request := Synthetic.Request)
      (Response := Synthetic.Response)
      (call_post_fork Synthetic.arbiter0 Synthetic.worker4321) =
    [(0%nat, {| levelname := INFO; message := "Worker 4321 spawned" |})] ∧
  records (Environ := gmap string string) (Request := Synthetic.Request)
      (Response := Synthetic.Response)
      (call_post_fork
         {| Synthetic.arbiter_log := 5; Synthetic.arbiter_pid := VNone |}
         Synthetic.worker4321) =
    [(5%nat, {| levelname := INFO; message := "Worker 4321 spawned" |})] ∧
  callee (Environ := gmap string string) (Request := Synthetic.Request)
      (Response := Synthetic.Response)
      (call_post_fork Synthetic.arbiter0 Synthetic.worker4321) =
    callee (Environ := gmap string string) (Request := Synthetic.Request)
      (Response := Synthetic.Response)
      (call_post_fork
         {| Synthetic.arbiter_log := 5; Synthetic.arbiter_pid := VNone |}
         Synthetic.worker4321).
Proof.
  split; [by vm_compute|]. split; [by vm_compute|].
  apply (line_identifies_callback _ _ 0%nat 5%nat
           {| levelname := INFO; message := "Worker 4321 spawned" |}
           {| levelname := INFO; message := "Worker 4321 spawned" |});
    by vm_compute.
Defined.

(** X9. Forked workers are told apart by the line [post_fork] writes: when
    the two process ids are different integers, the two messages differ. *)
Theorem post_fork_lines_differ `{!HasLog Server, !HasPid Worker}
    (s1 s2 : Server) (w1 w2 : Worker) (st1 st2 : stream) (z1 z2 : Z) :
  pid w1 = VInt z1 → pid w2 = VInt z2 → z1 ≠ z2 →
  ∃ r1 r2,
    post_fork s1 w1 st1 = Ok (VNone, st1 ++ [(log s1, r1)]) ∧
    post_fork s2 w2 st2 = Ok (VNone, st2 ++ [(log s2, r2)]) ∧
    message r1 ≠ message r2.
Proof.
  intros Hp1 Hp2 Hne. eexists _, _.
  split; [apply post_fork_eq|]. split; [apply post_fork_eq|].
  simpl. rewrite Hp1, Hp2. simpl. intros Heq.
  apply (inj (String.app "Worker ")) in Heq.
  apply app_inj_r in Heq. by apply (inj pretty) in Heq.
Qed.

Lemma post_fork_lines_differ_witness :
  pid Synthetic.worker4321 = VInt 4321 ∧ pid worker5150 = VInt 5150 ∧
  4321%Z ≠ 5150%Z ∧
  ∃ r1 r2,
    post_fork Synthetic.arbiter0 Synthetic.worker4321 [] =
      Ok (VNone, [] ++ [(log Synthetic.arbiter0, r1)]) ∧
    post_fork Synthetic.arbiter0 worker5150 [] =
      Ok (VNone, [] ++ [(log Synthetic.arbiter0, r2)]) ∧
    message r1 ≠ message r2.
Proof.
  split; [reflexivity|]. split; [reflexivity|]. split; [lia|].
  apply (post_fork_lines_differ Synthetic.arbiter0 Synthetic.arbiter0
           Synthetic.worker4321 worker5150 [] [] 4321 5150);
    [reflexivity | reflexivity | lia].
Defined.

(** X10. The request lines can be read back.  When neither method contains
    a space, two invocations of [pre_request] that write the same record were
    given the same method text and the same path text; two invocations of
    [post_request] that write the same record were given the same status
    text. *)
Theorem request_lines_determine_fields
    `{!HasLog Worker, !HasMethod Request, !HasPath Request, !HasStatus Response}
    {Environ : Type} :
  (∀ (w1 w2 : Worker) (r1 r2 : Request) (st1 st2 : stream)
     (lg1 lg2 : logger) (rec : LogRecord),
     contains " " (str (method r1)) = false →
     contains " " (str (method r2)) = false →
     pre_request w1 r1 st1 = Ok (VNone, st1 ++ [(lg1, rec)]) →
     pre_request w2 r2 st2 = Ok (VNone, st2 ++ [(lg2, rec)]) →
     str (method r1) = str (method r2) ∧ str (path r1) = str (path r2)) ∧
  (∀ (w1 w2 : Worker) (r1 r2 : Request) (e1 e2 : Environ) (p1 p2 : Response)
     (st1 st2 : stream) (lg1 lg2 : logger) (rec : LogRecord),
     post_request w1 r1 e1 p1 st1 = Ok (VNone, st1 ++ [(lg1, rec)]) →
     post_request w2 r2 e2 p2 st2 = Ok (VNone, st2 ++ [(lg2, rec)]) →
     str (status p1) = str (status p2)).
Proof.
  split.
  - intros w1 w2 r1 r2 st1 st2 lg1 lg2 rec Hm1 Hm2 H1 H2.
    rewrite pre_request_eq in H1, H2.
    apply single_record_inv in H1 as [_ <-].
    apply single_record_inv in H2 as [_ Hrec].
    injection Hrec as Heq.
    apply (split_at_space _ _ _ _ Hm1 Hm2). symmetry. exact Heq.
  - intros w1 w2 r1 r2 e1 e2 p1 p2 st1 st2 lg1 lg2 rec H1 H2.
    rewrite post_request_eq in H1, H2.
    apply single_record_inv in H1 as [_ <-].
    apply single_record_inv in H2 as [_ Hrec].
    injection Hrec as Heq. symmetry. exact Heq.
Qed.

Lemma request_lines_determine_fields_witness :
  (contains " " (str (method Synthetic.get_health)) = false ∧
   contains " " (str (method Synthetic.get_health_verbose)) = false ∧
   pre_request Synthetic.worker4321 Synthetic.get_health [] =
     Ok (VNone, [] ++ [(1%nat, {| levelname := DEBUG;
                                  message := "Request: GET /health" |})]) ∧
   pre_request Synthetic.worker_booting Synthetic.get_health_verbose [] =
     Ok (VNone, [] ++ [(0%nat, {| levelname := DEBUG;
                                  message := "Request: GET /health" |})]) ∧
   str (method Synthetic.get_health) = str (method Synthetic.get_health_verbose) ∧
   str (path Synthetic.get_health) = str (path Synthetic.get_health_verbose)) ∧
  (post_request Synthetic.worker4321 Synthetic.get_health Synthetic.environ0
     Synthetic.resp200 [] =
     Ok (VNone, [] ++ [(1%nat, {| levelname := DEBUG;
                                  message := "Response: 200" |})]) ∧
   post_request Synthetic.worker_booting Synthetic.get_health_verbose
     Synthetic.environ1 Synthetic.resp200_chunked [] =
     Ok (VNone, [] ++ [(0%nat, {| levelname := DEBUG;
                                  message := "Response: 200" |})]) ∧
   str (status Synthetic.resp200) = str (status Synthetic.resp200_chunked)).
Proof.
  destruct (request_lines_determine_fields
              (Worker := Synthetic.Worker) (Request := Synthetic.Request)
              (Response := Synthetic.Response) (Environ := gmap string string))
    as [Hpre Hpost].
  split.
  - split; [by vm_compute|]. split; [by vm_compute|].
    split; [by vm_compute|]. split; [by vm_compute|].
    apply (Hpre Synthetic.worker4321 Synthetic.worker_booting
             Synthetic.get_health Synthetic.get_health_verbose [] [] 1%nat 0%nat
             {| levelname := DEBUG; message := "Request: GET /health" |});
      by vm_compute.
  - split; [by vm_compute|]. split; [by vm_compute|].
    apply (Hpost Synthetic.worker4321 Synthetic.worker_booting
             Synthetic.get_health Synthetic.get_health_verbose
             Synthetic.environ0 Synthetic.environ1
             Synthetic.resp200 Synthetic.resp200_chunked [] [] 1%nat 0%nat
             {| levelname := DEBUG; message := "Response: 200" |});
      by vm_compute.
Defined.

(** Without the condition on the method the line is ambiguous: a method with
    a space in it and a path with a space in it can give the same line. *)
Example spaced_requests_collide :
  pre_request Synthetic.worker4321 spaced_method [] =
    pre_request Synthetic.worker4321 spaced_path [] ∧
  method spaced_method ≠ method spaced_path.
Proof. split; [by vm_compute | discriminate]. Qed.

(** X11. [post_fork] writes on the logger of the server it is given and not
    on the worker's: when the two loggers are different objects, the worker's
    logger holds the records it held before, and the server's holds one
    more. *)
Theorem post_fork_writes_on_server_logger
    `{!HasLog Server, !HasLog Worker, !HasPid Worker}
    (server : Server) (worker : Worker) (st : stream) :
  log worker ≠ log server →
  ∃ st' r,
    post_fork server worker st = Ok (VNone, st') ∧
    on_logger (log worker) st' = on_logger (log worker) st ∧
    on_logger (log server) st' = on_logger (log server) st ++ [r].
Proof.
  intros Hne. eexists _, _. split; [apply post_fork_eq|].
  unfold on_logger. rewrite !filter_app, !filter_cons, !filter_nil. simpl.
  rewrite decide_False by (by intros Heq; apply Hne).
  rewrite decide_True by done.
  rewrite app_nil_r, fmap_app. by split.
Qed.

Lemma post_fork_writes_on_server_logger_witness :
  log Synthetic.worker4321 ≠ log Synthetic.arbiter0 ∧
  ∃ st' r,
    post_fork Synthetic.arbiter0 Synthetic.worker4321
      [(1%nat, {| levelname := INFO; message := "Worker received INT or QUIT signal" |})] =
      Ok (VNone, st') ∧
    on_logger (log Synthetic.worker4321) st' =
      on_logger (log Synthetic.worker4321)
        [(1%nat, {| levelname := INFO; message := "Worker received INT or QUIT signal" |})] ∧
    on_logger (log Synthetic.arbiter0) st' =
      on_logger (log Synthetic.arbiter0)
        [(1%nat, {| levelname := INFO; message := "Worker received INT or QUIT signal" |})]
      ++ [r].
Proof.
  split; [by vm_compute|].
  apply (post_fork_writes_on_server_logger Synthetic.arbiter0 Synthetic.worker4321).
  by vm_compute.
Defined.

End RunsTheory.

(** ** The callbacks on untyped arguments *)

Module ObjectsTheory.
Import Py Conf Hooks Objects HooksTheory.


Lemma getattr_absent (o : gmap string attr) (name : string) (st : stream) :
  o !! name = None → getattr o name st = Raise (AttributeError name).
Proof. intros H. unfold getattr. by rewrite H. Qed.




Section Repr.
Variable object_repr : logger → string.






End Repr.

(** The typed callbacks are the untyped ones on objects that have the
    attributes. *)
Lemma untyped_agrees (object_repr : logger → string)
    (c : call Synthetic.Arbiter Synthetic.Worker Synthetic.Request
           (gmap string string) Synthetic.Response) (st : stream) :
  invoke_obj object_repr (untyped c) st = invoke c st.
Proof. destruct c; reflexivity. Qed.




End ObjectsTheory.
